(** * MessageService: the agent's message gateway

    A shallow embedding of [MessageService] (the class that decides whether
    an event of the task loop becomes a rendered message) and of the parts
    of JavaScript it relies on: dynamically typed values, property access
    that throws on [null]/[undefined], optional chaining, strict equality
    against literals, [typeof], and template literals.

    Methods are computations in a small state-and-exception monad whose
    state holds the object's two fields and the log of the calls made to
    the render callback.

    Two smaller units follow the same pattern: the command-line entry
    point ([cli/src/index.js]), as the sequence of calls it makes to what
    it imports, and the list of agents of the sidebar
    ([next/src/layout/sidebar.tsx]), as the children it renders. *)

From Stdlib Require Import String Ascii ZArith List Bool Lia.
From ExtLib Require Import Structures.Monad Data.Monads.EitherMonad.
Import ListNotations.
Import MonadNotation.
Local Open Scope string_scope.
Local Open Scope monad_scope.

Set Implicit Arguments.
Set Warnings "-register-all".

(* ===================================================================== *)
(** ** JavaScript values *)
(* ===================================================================== *)

Module JS.

(** The values a caught error ([e: unknown]) can be, one constructor for
    each kind [typeof] tells apart and one for [null].  Numbers stand for
    the integral doubles (an HTTP status is one; every other double
    compares to 404 and 429 as an integer other than these does); an
    object or a function is the list of the data properties a [[Get]]
    finds on it, first binding first. *)
Inductive JSValue : Type :=
| JUndefined
| JNull
| JBoolean (b : bool)
| JNumber (n : Z)
| JBigInt (n : Z)
| JString (s : string)
| JSymbol (description : string)
| JObject (props : list (string * JSValue))
| JFunction (props : list (string * JSValue)).

Inductive JSError : Type :=
| TypeError (msg : string).

(** The outcome of evaluating an expression: [inl] is a thrown error,
    [inr] the value. *)
Definition Completion : Type -> Type := sum JSError.

Definition throw {A : Type} (err : JSError) : Completion A := inl err.

Fixpoint lookup (name : string) (props : list (string * JSValue)) : JSValue :=
  match props with
  | [] => JUndefined
  | (k, v) :: rest => if String.eqb k name then v else lookup name rest
  end.

Definition is_nullish (v : JSValue) : bool :=
  match v with
  | JUndefined | JNull => true
  | _ => false
  end.

(** [v.name]: a TypeError on [null] and [undefined]; [undefined] on the
    other primitives (none of the names read by the service is a
    property of the wrapper of a primitive). *)
Definition get_prop (v : JSValue) (name : string) : Completion JSValue :=
  match v with
  | JUndefined | JNull =>
      throw (TypeError ("Cannot read properties of null or undefined: " ++ name))
  | JObject props | JFunction props => ret (lookup name props)
  | JBoolean _ | JNumber _ | JBigInt _ | JString _ | JSymbol _ => ret JUndefined
  end.

(** [v?.name] *)
Definition get_prop_opt (v : JSValue) (name : string) : Completion JSValue :=
  if is_nullish v then ret JUndefined else get_prop v name.

(** [v === n] for a number literal [n] *)
Definition strict_eq_number (v : JSValue) (n : Z) : bool :=
  match v with
  | JNumber m => Z.eqb m n
  | _ => false
  end.

(** [v === true] *)
Definition strict_eq_true (v : JSValue) : bool :=
  match v with
  | JBoolean b => b
  | _ => false
  end.

Definition typeof (v : JSValue) : string :=
  match v with
  | JUndefined => "undefined"
  | JNull => "object"
  | JBoolean _ => "boolean"
  | JNumber _ => "number"
  | JBigInt _ => "bigint"
  | JString _ => "string"
  | JSymbol _ => "symbol"
  | JObject _ => "object"
  | JFunction _ => "function"
  end.

(** axios' [utils.isObject]: [thing !== null && typeof thing === 'object'] *)
Definition isObject (thing : JSValue) : bool :=
  match thing with
  | JNull => false
  | _ => String.eqb (typeof thing) "object"
  end.

(** [axios.isAxiosError]:
    [isObject(payload) && (payload.isAxiosError === true)] *)
Definition isAxiosError (payload : JSValue) : Completion bool :=
  if isObject payload then
    flag <- get_prop payload "isAxiosError" ;;
    ret (strict_eq_true flag)
  else ret false.

(** [`${v}`] for a value typed [string | undefined] *)
Definition template (v : option string) : string :=
  match v with
  | Some s => s
  | None => "undefined"
  end.

(** [v == lit] for a string literal [lit] and [v] typed
    [string | undefined]: [undefined] is loosely equal to [null] and
    [undefined] only. *)
Definition loose_eq_string (v : option string) (lit : string) : bool :=
  match v with
  | Some s => String.eqb s lit
  | None => false
  end.

End JS.
Import JS.

(* ===================================================================== *)
(** ** Messages and analyses *)
(* ===================================================================== *)

(** Modelled from the spec: the message type tags of [types/agentTypes],
    of which the service uses three; the spec gives the closed set
    {Goal, SystemStatus, Thinking}. *)
Inductive MessageType : Type :=
| MESSAGE_TYPE_GOAL
| MESSAGE_TYPE_SYSTEM
| MESSAGE_TYPE_THINKING.

Record Message : Type := mkMessage {
  type : MessageType;
  value : string
}.

(** Modelled from the spec: the [Analysis] type of [./analysis], a
    descriptor [{ action, arg }] whose [action] is one of the tags or
    other/unspecified and whose [arg] is an optional string.  [None] is a
    property that is [undefined]. *)
Record Analysis : Type := mkAnalysis {
  action : option string;
  arg : option string
}.

Definition dquote : string := String "034"%char EmptyString.

(* ===================================================================== *)
(** ** The pure steps of [sendAnalysisMessage] and [sendErrorMessage] *)
(* ===================================================================== *)

(** The local [message] of [sendAnalysisMessage] after its four
    independent [if]s. *)
Definition analysisMessage (analysis : Analysis) : string :=
  let message := "⏰ Generating response..." in
  let message :=
    if loose_eq_string (action analysis) "search"
    then "🔍 Searching the web for " ++ dquote ++ template (arg analysis)
           ++ dquote ++ "..."
    else message in
  let message :=
    if loose_eq_string (action analysis) "wikipedia"
    then "🌐 Searching Wikipedia for " ++ dquote ++ template (arg analysis)
           ++ dquote ++ "..."
    else message in
  let message :=
    if loose_eq_string (action analysis) "image"
    then "🎨 Generating an image with prompt: " ++ dquote
           ++ template (arg analysis) ++ dquote ++ "..."
    else message in
  let message :=
    if loose_eq_string (action analysis) "code"
    then "💻 Writing code..."
    else message in
  message.

(** [e.response?.status] *)
Definition response_status (e : JSValue) : Completion JSValue :=
  response <- get_prop e "response" ;;
  get_prop_opt response "status".

(** The local [message] of [sendErrorMessage] when it reaches the call of
    [translate]: the classification step. *)
Definition classify (e : JSValue) : Completion string :=
  let message := "ERROR_RETRIEVE_INITIAL_TASKS" in
  axiosError <- isAxiosError e ;;
  if (axiosError : bool) then
    status <- response_status e ;;
    let message :=
      if strict_eq_number status 429 then "ERROR_API_KEY_QUOTA" else message in
    status <- response_status e ;;
    let message :=
      if strict_eq_number status 404 then "ERROR_OPENAI_API_KEY_NO_GPT4"
      else "ERROR_ACCESSING_OPENAI_API_KEY" in
    ret message
  else if String.eqb (typeof e) "string" then
    match e with
    | JString s => ret s
    | _ => ret message
    end
  else ret message.

(* ===================================================================== *)
(** ** The classifier's branch table, as the specification words it *)
(* ===================================================================== *)

(** The failure is recognised as a transport-layer error. *)
Definition is_transport_error (e : JSValue) : bool :=
  match isAxiosError e with
  | inr b => b
  | inl _ => false
  end.

(** The numeric status code the failure carries, if it carries one. *)
Definition status_code (e : JSValue) : option Z :=
  match response_status e with
  | inr (JNumber n) => Some n
  | _ => None
  end.

Definition has_status (e : JSValue) (code : Z) : bool :=
  match status_code e with
  | Some n => Z.eqb n code
  | None => false
  end.

(** Steps 1 to 4 of the classifier: 404 gives the model-unavailable key,
    every other transport-layer error the generic access key, a plain
    string itself, and anything else the default key. *)
Definition branch_table (e : JSValue) : string :=
  if is_transport_error e then
    if has_status e 404 then "ERROR_OPENAI_API_KEY_NO_GPT4"
    else "ERROR_ACCESSING_OPENAI_API_KEY"
  else
    match e with
    | JString text => text
    | _ => "ERROR_RETRIEVE_INITIAL_TASKS"
    end.

(** A transport-layer error carries no status code at all: it has no
    response, or its response has no status. *)
Definition no_status_code (e : JSValue) : Prop :=
  exists response,
    get_prop e "response" = inr response /\
    (is_nullish response = true \/
     exists status,
       get_prop response "status" = inr status /\ is_nullish status = true).

(** An action that is none of the four recognised tags, or is missing. *)
Definition unrecognized (act : option string) : Prop :=
  ~ In act [Some "search"; Some "wikipedia"; Some "image"; Some "code"].

(** [text] contains [part]. *)
Definition contains (text part : string) : Prop :=
  exists before after, text = before ++ part ++ after.

(** Sample failures: the error axios builds for a response with the given
    status, the one it builds when no response arrived, and an object
    that is no error of axios. *)
Definition axiosErrorWithStatus (status : Z) : JSValue :=
  JObject [("message", JString "Request failed");
           ("isAxiosError", JBoolean true);
           ("response", JObject [("status", JNumber status);
                                 ("data", JNull)])].

Definition axiosErrorWithoutResponse : JSValue :=
  JObject [("message", JString "Network Error");
           ("isAxiosError", JBoolean true);
           ("code", JString "ERR_NETWORK")].

Definition unrelatedObject : JSValue :=
  JObject [("foo", JNumber 1)].

(** A sample text resolver: the namespace, a colon, the key. *)
Definition sampleTranslate (key namespace : string) : string :=
  namespace ++ ":" ++ key.

(* ===================================================================== *)
(** ** Reading an analysis sentence back *)
(* ===================================================================== *)

(** The branch of [sendAnalysisMessage] an action selects. *)
Inductive ActionKind : Type :=
| SearchAction
| WikipediaAction
| ImageAction
| CodeAction
| OtherAction.

Definition action_kind (act : option string) : ActionKind :=
  match act with
  | Some tag =>
      if String.eqb tag "search" then SearchAction
      else if String.eqb tag "wikipedia" then WikipediaAction
      else if String.eqb tag "image" then ImageAction
      else if String.eqb tag "code" then CodeAction
      else OtherAction
  | None => OtherAction
  end.

(** The branches whose sentence embeds [arg]. *)
Definition embeds_arg (kind : ActionKind) : bool :=
  match kind with
  | SearchAction | WikipediaAction | ImageAction => true
  | CodeAction | OtherAction => false
  end.

(* ===================================================================== *)
(** ** The command-line entry point *)
(* ===================================================================== *)

Module Cli.

(** The two question lists of [./questions]. *)
Inductive Questions : Type :=
| newEnvQuestions
| existingEnvQuestions.

(** The calls the entry point makes to what it imports and to the
    console, each with its arguments. *)
Inductive Event : Type :=
| PrintTitle
| DoesEnvFileExist
| TestEnvFile
| Prompt (questions : Questions)
| DotenvConfig (path : string)
| GenerateEnv (answers : JSValue)
| ConsoleLog (line : string)
| Spawn (command : string) (args : list string) (stdio : string).

(** What the imported functions do when they are called: return (with a
    result) or throw.  For [inquirer.prompt] the result is the answers its
    promise is fulfilled with, and [None] when the promise is not
    fulfilled.  [console.log] returns. *)
Record Host : Type := mkHost {
  printTitle_returns : bool;
  doesEnvFileExist_result : option bool;
  testEnvFile_returns : bool;
  prompt_result : Questions -> option JSValue;
  dotenvConfig_returns : bool;
  generateEnv_returns : JSValue -> bool;
  spawn_returns : bool
}.

(** A run: the calls made, oldest first, and the value returned, [None]
    when an exception cut the run short. *)
Definition IO (A : Type) : Type := (list Event * option A)%type.

#[local] Instance Monad_IO : Monad IO := {|
  ret := fun _ a => ([], Some a);
  bind := fun _ _ c k =>
    match c with
    | (calls, Some a) => let (more, result) := k a in ((calls ++ more)%list, result)
    | (calls, None) => (calls, None)
    end
|}.

Definition call {A : Type} (ev : Event) (outcome : option A) : IO A :=
  ([ev], outcome).

Definition returns (ok : bool) : option unit :=
  if ok then Some tt else None.

Definition evaluate {A : Type} (c : Completion A) : IO A :=
  ([], match c with inr a => Some a | inl _ => None end).

(** [promise.then(callback)]: the callback runs on the value the promise
    is fulfilled with, once the job that called [then] has ended; both
    callers end right after the call, so the calls of the callback come
    next.  An exception in the callback rejects the promise [then]
    returns and does not reach the caller. *)
Definition then_ (promise : IO (option JSValue)) (callback : JSValue -> IO unit)
  : IO unit :=
  settled <- promise ;;
  match settled with
  | Some v => (fst (callback v), Some tt)
  | None => ret tt
  end.

(** [v === lit] for a string literal [lit] *)
Definition strict_eq_string (v : JSValue) (lit : string) : bool :=
  match v with
  | JString s => String.eqb s lit
  | _ => false
  end.

Definition newline : string := String "010"%char EmptyString.

Section WithHost.

Variable host : Host.

Definition printTitle : IO unit :=
  call PrintTitle (returns (printTitle_returns host)).

Definition doesEnvFileExist : IO bool :=
  call DoesEnvFileExist (doesEnvFileExist_result host).

Definition testEnvFile : IO unit :=
  call TestEnvFile (returns (testEnvFile_returns host)).

Definition prompt (questions : Questions) : IO (option JSValue) :=
  call (Prompt questions) (Some (prompt_result host questions)).

Definition dotenv_config (path : string) : IO unit :=
  call (DotenvConfig path) (returns (dotenvConfig_returns host)).

Definition generateEnv (answers : JSValue) : IO unit :=
  call (GenerateEnv answers) (returns (generateEnv_returns host answers)).

Definition console_log (line : string) : IO unit :=
  call (ConsoleLog line) (Some tt).

Definition spawn (command : string) (args : list string) (stdio : string) : IO unit :=
  call (Spawn command args stdio) (returns (spawn_returns host)).

Definition handleRunOption (runOption : JSValue) : IO unit :=
  (if strict_eq_string runOption "docker-compose"
   then spawn "docker-compose" ["up"; "--build"] "inherit"
   else ret tt) ;;
  (if strict_eq_string runOption "docker"
   then console_log
          "Please manually run the docker files in `./next` and `./platform`"
   else ret tt) ;;
  (if strict_eq_string runOption "manual"
   then
     console_log
       "Please go into the ./next folder and run `npm install && npm run dev`." ;;
     console_log
       "Please also go into the ./platform folder and run `poetry install && poetry run python -m reworkd_platform`." ;;
     console_log
       "Please use or update the MySQL database configuration in the env file(s)."
   else ret tt).

Definition handleExistingEnv : IO unit :=
  console_log "Existing ./next/env file found. Validating..." ;;
  testEnvFile ;;
  then_ (prompt existingEnvQuestions)
    (fun answers =>
       runOption <- evaluate (get_prop answers "runOption") ;;
       handleRunOption runOption).

Definition handleNewEnv : IO unit :=
  then_ (prompt newEnvQuestions)
    (fun answers =>
       dotenv_config "./.env" ;;
       generateEnv answers ;;
       console_log (newline ++ "Env files successfully created!") ;;
       runOption <- evaluate (get_prop answers "runOption") ;;
       handleRunOption runOption).

Definition main : IO unit :=
  printTitle ;;
  found <- doesEnvFileExist ;;
  if (found : bool) then handleExistingEnv else handleNewEnv.

End WithHost.

(** The calls of [handleRunOption], and the calls of the callback of
    either flow from its reading of [answers.runOption] on. *)
Definition runOption_calls (host : Host) (runOption : JSValue) : list Event :=
  fst (handleRunOption host runOption).

Definition answered_calls (host : Host) (answers : JSValue) : list Event :=
  match get_prop answers "runOption" with
  | inr runOption => runOption_calls host runOption
  | inl _ => []
  end.

(** The one process the entry point can start. *)
Definition dockerComposeUp : Event :=
  Spawn "docker-compose" ["up"; "--build"] "inherit".

(** Sample hosts: every import returns; the env file exists or not; the
    user picks the given run option. *)
Definition sampleHost (envFileExists : bool) (runOption : string) : Host :=
  {| printTitle_returns := true;
     doesEnvFileExist_result := Some envFileExists;
     testEnvFile_returns := true;
     prompt_result := fun _ => Some (JObject [("runOption", JString runOption)]);
     dotenvConfig_returns := true;
     generateEnv_returns := fun _ => true;
     spawn_returns := true |}.

End Cli.

(* ===================================================================== *)
(** ** The sidebar's list of agents *)
(* ===================================================================== *)

Module Sidebar.

(** What the sidebar reads of an agent of [api.agent.getAll]: its name
    and its id, both strings. *)
Record Agent : Type := mkAgent {
  name : string;
  id : string
}.

(** The children of the agent list of [SidebarLayout]: the sign-in notice
    with its two translated texts, the notice that an agent must be
    created first, and a [DrawerItemButton] with its key, its text and
    the path its click pushes to the router.  Class names and icons are
    constants and are left out. *)
Inductive Child : Type :=
| SignInNotice (link notice : string)
| CreateAgentNotice (notice : string)
| DrawerItemButton (key : nat) (text : string) (pushes : string).

(** [array.map((item, index) => ...)], indices counted from [start] *)
Fixpoint map_index {A B : Type} (f : A -> nat -> B) (start : nat) (items : list A)
  : list B :=
  match items with
  | [] => []
  | item :: rest => f item start :: map_index f (S start) rest
  end.

(** [query.data ?? []] *)
Definition userAgents (data : option (list Agent)) : list Agent :=
  match data with
  | Some agents => agents
  | None => []
  end.

(** [cond && element] as a child: nothing when [cond] is false. *)
Definition when (cond : bool) (element : Child) : list Child :=
  if cond then [element] else [].

Section WithTranslation.

(** [t] of [useTranslation("drawer")] *)
Variable t : string -> string.

Definition agentList (status : string) (data : option (list Agent)) : list Child :=
  (when (String.eqb status "unauthenticated")
        (SignInNotice (t "SIGN_IN") (t "SIGN_IN_NOTICE")) ++
   when (String.eqb status "authenticated" && Nat.eqb (length (userAgents data)) 0)
        (CreateAgentNotice (t "NEED_TO_SIGN_IN_AND_CREATE_AGENT_FIRST")) ++
   map_index
     (fun agent index =>
        DrawerItemButton index (name agent) ("/agent?id=" ++ id agent))
     0 (userAgents data))%list.

End WithTranslation.

(** The buttons among the children, in order. *)
Definition buttons (children : list Child) : list (nat * string * string) :=
  flat_map
    (fun child =>
       match child with
       | DrawerItemButton key text pushes => [(key, text, pushes)]
       | _ => []
       end)
    children.

Definition sampleT (key : string) : string := "drawer:" ++ key.

End Sidebar.

(* ===================================================================== *)
(** ** Failures whose property reads run code *)
(* ===================================================================== *)

Module Engine.

(** A caught value as the engine sees it.  [Plain v] is a value of data
    properties: its reads return and repeat.  [Exotic get] is an object
    that is not callable and has accessor properties or is a Proxy:
    reading its property [name], when [n] reads of such objects have been
    made so far, runs code and gives [get name n], a value or a thrown
    error, which may differ from one read to the next. *)
Inductive Value : Type :=
| Plain (v : JSValue)
| Exotic (get : string -> nat -> Completion Value).

(** A step that reads properties: from the count of the reads made so
    far to its completion and the new count. *)
Definition Reads (A : Type) : Type := nat -> Completion A * nat.

#[local] Instance Monad_Reads : Monad Reads := {|
  ret := fun _ a n => (inr a, n);
  bind := fun _ _ c k n =>
    match c n with
    | (inr a, n') => k a n'
    | (inl err, n') => (inl err, n')
    end
|}.

(** [v.name] *)
Definition read (v : Value) (name : string) : Reads Value :=
  fun n =>
    match v with
    | Plain data =>
        (match get_prop data name with
         | inr result => inr (Plain result)
         | inl err => inl err
         end, n)
    | Exotic get => (get name n, S n)
    end.

Definition is_nullish (v : Value) : bool :=
  match v with
  | Plain data => JS.is_nullish data
  | Exotic _ => false
  end.

(** [v?.name] *)
Definition read_opt (v : Value) (name : string) : Reads Value :=
  if is_nullish v then ret (Plain JUndefined) else read v name.

Definition strict_eq_number (v : Value) (n : Z) : bool :=
  match v with
  | Plain data => JS.strict_eq_number data n
  | Exotic _ => false
  end.

Definition strict_eq_true (v : Value) : bool :=
  match v with
  | Plain data => JS.strict_eq_true data
  | Exotic _ => false
  end.

Definition typeof (v : Value) : string :=
  match v with
  | Plain data => JS.typeof data
  | Exotic _ => "object"
  end.

Definition isObject (thing : Value) : bool :=
  match thing with
  | Plain data => JS.isObject data
  | Exotic _ => true
  end.

Definition isAxiosError (payload : Value) : Reads bool :=
  if isObject payload then
    flag <- read payload "isAxiosError" ;;
    ret (strict_eq_true flag)
  else ret false.

(** [e.response?.status] *)
Definition response_status (e : Value) : Reads Value :=
  response <- read e "response" ;;
  read_opt response "status".

(** Lines 81 to 89 of [sendErrorMessage], on such a value. *)
Definition classify (e : Value) : Reads string :=
  let message := "ERROR_RETRIEVE_INITIAL_TASKS" in
  axiosError <- isAxiosError e ;;
  if (axiosError : bool) then
    status <- response_status e ;;
    let message :=
      if strict_eq_number status 429 then "ERROR_API_KEY_QUOTA" else message in
    status <- response_status e ;;
    let message :=
      if strict_eq_number status 404 then "ERROR_OPENAI_API_KEY_NO_GPT4"
      else "ERROR_ACCESSING_OPENAI_API_KEY" in
    ret message
  else if String.eqb (typeof e) "string" then
    match e with
    | Plain (JString s) => ret s
    | _ => ret message
    end
  else ret message.






End Engine.

(* ===================================================================== *)
(** ** The service *)
(* ===================================================================== *)

Section Service.

(** [Sink] is the type of references to render callbacks; [translate] is
    the text resolver of [utils/translations], here a total function of
    the key and the namespace. *)
Variable Sink : Type.
Variable translate : string -> string -> string.

Record MessageService : Type := mkMessageService {
  isRunning : bool;
  renderMessage : Sink
}.

(** What a method can read and change: the receiver's fields, and the
    calls made so far to render callbacks, oldest first.  A callback
    returns normally and does not call back into the service. *)
Record Heap : Type := mkHeap {
  this : MessageService;
  rendered : list (Sink * Message)
}.

Definition Eff (A : Type) : Type := Heap -> Completion A * Heap.

#[local] Instance Monad_Eff : Monad Eff := {|
  ret := fun _ a h => (inr a, h);
  bind := fun _ _ c k h =>
    match c h with
    | (inr a, h') => k a h'
    | (inl err, h') => (inl err, h')
    end
|}.

Definition of_completion {A : Type} (c : Completion A) : Eff A :=
  fun h => (c, h).

Definition read_isRunning : Eff bool :=
  fun h => (inr (isRunning (this h)), h).

Definition write_isRunning (b : bool) : Eff unit :=
  fun h =>
    (inr tt,
     {| this := {| isRunning := b; renderMessage := renderMessage (this h) |};
        rendered := rendered h |}).

Definition call_renderMessage (message : Message) : Eff unit :=
  fun h =>
    (inr tt,
     {| this := this h;
        rendered := rendered h ++ [(renderMessage (this h), message)] |}).

Definition constructor (renderMessage : Sink) : MessageService :=
  {| isRunning := false; renderMessage := renderMessage |}.

Definition setIsRunning (isRunning : bool) : Eff unit :=
  write_isRunning isRunning.

Definition sendMessage (message : Message) : Eff unit :=
  running <- read_isRunning ;;
  if running then call_renderMessage message else ret tt.

Definition sendGoalMessage (goal : string) : Eff unit :=
  sendMessage {| type := MESSAGE_TYPE_GOAL; value := goal |}.

Definition sendLoopMessage : Eff unit :=
  sendMessage {| type := MESSAGE_TYPE_SYSTEM;
                 value := translate "DEMO_LOOPS_REACHED" "errors" |}.

Definition sendManualShutdownMessage : Eff unit :=
  sendMessage {| type := MESSAGE_TYPE_SYSTEM;
                 value := translate "AGENT_MANUALLY_SHUT_DOWN" "errors" |}.

Definition sendCompletedMessage : Eff unit :=
  sendMessage {| type := MESSAGE_TYPE_SYSTEM;
                 value := translate "ALL_TASKS_COMPLETETD" "errors" |}.

Definition sendAnalysisMessage (analysis : Analysis) : Eff unit :=
  sendMessage {| type := MESSAGE_TYPE_SYSTEM; value := analysisMessage analysis |}.

Definition sendThinkingMessage : Eff unit :=
  sendMessage {| type := MESSAGE_TYPE_THINKING; value := "" |}.

Definition sendErrorMessage (e : JSValue) : Eff unit :=
  message <- of_completion (classify e) ;;
  sendMessage {| type := MESSAGE_TYPE_SYSTEM; value := translate message "errors" |}.

(** A call of a public method, and a script of calls run in order. *)
Inductive Call : Type :=
| CallSetIsRunning (isRunning : bool)
| CallSendMessage (message : Message)
| CallSendGoalMessage (goal : string)
| CallSendLoopMessage
| CallSendManualShutdownMessage
| CallSendCompletedMessage
| CallSendAnalysisMessage (analysis : Analysis)
| CallSendThinkingMessage
| CallSendErrorMessage (e : JSValue).

Definition invoke (c : Call) : Eff unit :=
  match c with
  | CallSetIsRunning b => setIsRunning b
  | CallSendMessage m => sendMessage m
  | CallSendGoalMessage goal => sendGoalMessage goal
  | CallSendLoopMessage => sendLoopMessage
  | CallSendManualShutdownMessage => sendManualShutdownMessage
  | CallSendCompletedMessage => sendCompletedMessage
  | CallSendAnalysisMessage a => sendAnalysisMessage a
  | CallSendThinkingMessage => sendThinkingMessage
  | CallSendErrorMessage e => sendErrorMessage e
  end.

Fixpoint script (cs : list Call) : Eff unit :=
  match cs with
  | [] => ret tt
  | c :: rest => invoke c ;; script rest
  end.

(** *** The gate, as the specification words it *)

(** The notification a call tries to publish. *)
Definition attempt (c : Call) : option Message :=
  match c with
  | CallSetIsRunning _ => None
  | CallSendMessage m => Some m
  | CallSendGoalMessage goal => Some {| type := MESSAGE_TYPE_GOAL; value := goal |}
  | CallSendLoopMessage =>
      Some {| type := MESSAGE_TYPE_SYSTEM;
              value := translate "DEMO_LOOPS_REACHED" "errors" |}
  | CallSendManualShutdownMessage =>
      Some {| type := MESSAGE_TYPE_SYSTEM;
              value := translate "AGENT_MANUALLY_SHUT_DOWN" "errors" |}
  | CallSendCompletedMessage =>
      Some {| type := MESSAGE_TYPE_SYSTEM;
              value := translate "ALL_TASKS_COMPLETETD" "errors" |}
  | CallSendAnalysisMessage a =>
      Some {| type := MESSAGE_TYPE_SYSTEM; value := analysisMessage a |}
  | CallSendThinkingMessage => Some {| type := MESSAGE_TYPE_THINKING; value := "" |}
  | CallSendErrorMessage e =>
      Some {| type := MESSAGE_TYPE_SYSTEM;
              value := translate (branch_table e) "errors" |}
  end.

(** The stored flag once [c] has returned. *)
Definition toggle (running : bool) (c : Call) : bool :=
  match c with
  | CallSetIsRunning b => b
  | _ => running
  end.

(** The stored flag at the moment call number [i] of [cs] is made, when
    the flag was [running0] before the first call. *)
Definition runState_at (running0 : bool) (cs : list Call) (i : nat) : bool :=
  fold_left toggle (firstn i cs) running0.

(** The notifications published while the flag was true, in call order. *)
Definition delivered_at (running0 : bool) (cs : list Call) (i : nat) : list Message :=
  match nth_error cs i with
  | Some c =>
      match attempt c with
      | Some m => if runState_at running0 cs i then [m] else []
      | None => []
      end
  | None => []
  end.

Definition received (running0 : bool) (cs : list Call) : list Message :=
  flat_map (delivered_at running0 cs) (seq 0 (length cs)).

(** The heap a call leaves behind. *)
Definition after (c : Call) (h : Heap) : Heap :=
  {| this := {| isRunning := toggle (isRunning (this h)) c;
                renderMessage := renderMessage (this h) |};
     rendered := rendered h ++
       match attempt c with
       | Some m => if isRunning (this h) then [(renderMessage (this h), m)] else []
       | None => []
       end |}.

(** *** Scripts as a whole *)

(** The notifications the calls of a script try to publish, in call
    order. *)
Definition attempts (cs : list Call) : list Message :=
  flat_map (fun c => match attempt c with Some m => [m] | None => [] end) cs.

(** The argument of the last [setIsRunning] of a script, if it has one. *)
Fixpoint last_setIsRunning (cs : list Call) : option bool :=
  match cs with
  | [] => None
  | c :: rest =>
      match last_setIsRunning rest with
      | Some b => Some b
      | None =>
          match c with
          | CallSetIsRunning b => Some b
          | _ => None
          end
      end
  end.

(** *** The methods on the arguments a caller can pass *)




(* ===================================================================== *)
(** ** Running the methods *)
(* ===================================================================== *)

Lemma bind_returned (A B : Type) (c : Eff A) (k : A -> Eff B) (h h' : Heap) (a : A) :
  c h = (inr a, h') -> bind c k h = k a h'.
Proof. intros E. cbn. rewrite E. reflexivity. Qed.

Lemma heap_eta (h : Heap) : {| this := this h; rendered := rendered h |} = h.
Proof. destruct h; reflexivity. Qed.

Lemma service_eta (s : MessageService) :
  {| isRunning := isRunning s; renderMessage := renderMessage s |} = s.
Proof. destruct s; reflexivity. Qed.

Lemma sendMessage_running (m : Message) (h : Heap) :
  isRunning (this h) = true ->
  sendMessage m h =
    (inr tt, {| this := this h;
                rendered := rendered h ++ [(renderMessage (this h), m)] |}).
Proof. intros R. unfold sendMessage. cbn. rewrite R. reflexivity. Qed.

Lemma sendMessage_stopped (m : Message) (h : Heap) :
  isRunning (this h) = false -> sendMessage m h = (inr tt, h).
Proof. intros R. unfold sendMessage. cbn. rewrite R. reflexivity. Qed.

(** *** The classification step *)

Lemma isAxiosError_object (e : JSValue) :
  isAxiosError e = inr true ->
  exists props, e = JObject props /\ lookup "isAxiosError" props = JBoolean true.
Proof.
  destruct e as [| | | | | | | props |]; cbn; try discriminate.
  intros E. exists props. split; [reflexivity|].
  destruct (lookup "isAxiosError" props) as [| | [|] | | | | | |]; cbn in E;
    try discriminate; reflexivity.
Qed.

Lemma isAxiosError_returns (e : JSValue) :
  isAxiosError e = inr (is_transport_error e).
Proof.
  unfold is_transport_error.
  destruct e; reflexivity.
Qed.

Lemma response_status_returns (e : JSValue) :
  is_transport_error e = true -> exists status, response_status e = inr status.
Proof.
  intros T. unfold is_transport_error in T.
  destruct (isAxiosError e) as [err | [|]] eqn:E; try discriminate.
  destruct (isAxiosError_object e E) as (props & -> & _).
  unfold response_status. cbn.
  destruct (lookup "response" props); cbn; eauto.
Qed.

Lemma classify_transport (e : JSValue) (status : JSValue) :
  is_transport_error e = true ->
  response_status e = inr status ->
  classify e =
    inr (if strict_eq_number status 404 then "ERROR_OPENAI_API_KEY_NO_GPT4"
         else "ERROR_ACCESSING_OPENAI_API_KEY").
Proof.
  intros T S. unfold classify.
  rewrite isAxiosError_returns, T. cbn -[response_status].
  rewrite S. reflexivity.
Qed.

Lemma classify_not_transport (e : JSValue) :
  is_transport_error e = false ->
  classify e =
    inr (match e with
         | JString text => text
         | _ => "ERROR_RETRIEVE_INITIAL_TASKS"
         end).
Proof.
  intros T. unfold classify.
  rewrite isAxiosError_returns, T. cbn.
  destruct e; reflexivity.
Qed.

Lemma classify_returns (e : JSValue) : classify e = inr (branch_table e).
Proof.
  unfold branch_table.
  destruct (is_transport_error e) eqn:T.
  - destruct (response_status_returns e T) as (status & S).
    rewrite (classify_transport e T S).
    unfold has_status, status_code. rewrite S.
    destruct status; reflexivity.
  - apply classify_not_transport, T.
Qed.

(** *** Single calls and scripts *)

Lemma sendMessage_run (m : Message) (h : Heap) :
  sendMessage m h =
    (inr tt,
     {| this := this h;
        rendered := rendered h ++
          if isRunning (this h) then [(renderMessage (this h), m)] else [] |}).
Proof.
  destruct (isRunning (this h)) eqn:R.
  - apply sendMessage_running, R.
  - rewrite (sendMessage_stopped m h R), app_nil_r, heap_eta. reflexivity.
Qed.

Lemma sendErrorMessage_run (e : JSValue) (h : Heap) :
  sendErrorMessage e h =
    sendMessage {| type := MESSAGE_TYPE_SYSTEM;
                   value := translate (branch_table e) "errors" |} h.
Proof.
  unfold sendErrorMessage.
  rewrite bind_returned with (h' := h) (a := branch_table e); [reflexivity|].
  unfold of_completion. rewrite classify_returns. reflexivity.
Qed.

Lemma invoke_run (c : Call) (h : Heap) : invoke c h = (inr tt, after c h).
Proof.
  unfold after.
  destruct c as [b | m | goal | | | | a | | e]; cbn [invoke attempt toggle];
    try (rewrite service_eta);
    [ | apply sendMessage_run .. | rewrite sendErrorMessage_run; apply sendMessage_run ].
  unfold setIsRunning, write_isRunning. rewrite app_nil_r. reflexivity.
Qed.

Lemma script_cons (c : Call) (cs : list Call) (h : Heap) :
  script (c :: cs) h = script cs (after c h).
Proof.
  cbn [script].
  rewrite bind_returned with (h' := after c h) (a := tt); [reflexivity|].
  apply invoke_run.
Qed.

Lemma delivered_at_cons (running0 : bool) (c : Call) (cs : list Call) (i : nat) :
  delivered_at running0 (c :: cs) (S i) = delivered_at (toggle running0 c) cs i.
Proof. reflexivity. Qed.

Lemma received_cons (running0 : bool) (c : Call) (cs : list Call) :
  received running0 (c :: cs) =
    (match attempt c with
     | Some m => if running0 then [m] else []
     | None => []
     end ++ received (toggle running0 c) cs)%list.
Proof.
  unfold received. cbn [length seq flat_map]. f_equal.
  rewrite <- seq_shift, !flat_map_concat_map, map_map.
  f_equal.
Qed.

Lemma script_run (cs : list Call) :
  forall h : Heap,
  exists h',
    script cs h = (inr tt, h') /\
    renderMessage (this h') = renderMessage (this h) /\
    isRunning (this h') = fold_left toggle cs (isRunning (this h)) /\
    rendered h' =
      (rendered h ++
       map (pair (renderMessage (this h))) (received (isRunning (this h)) cs))%list.
Proof.
  induction cs as [| c cs IH]; intros h.
  - exists h. cbn. rewrite app_nil_r. auto.
  - destruct (IH (after c h)) as (h' & Run & Sink' & Flag & Log).
    exists h'. rewrite script_cons. split; [exact Run|].
    split; [exact Sink'|]. split; [exact Flag|].
    rewrite Log, received_cons, map_app, app_assoc. cbn [after this rendered isRunning renderMessage].
    f_equal. f_equal.
    destruct (attempt c) as [m|]; [destruct (isRunning (this h))|]; reflexivity.
Qed.

Lemma script_stopped (cs : list Call) :
  forall h : Heap,
  isRunning (this h) = false ->
  ~ In (CallSetIsRunning true) cs ->
  exists h',
    script cs h = (inr tt, h') /\
    rendered h' = rendered h /\ isRunning (this h') = false.
Proof.
  induction cs as [| c cs IH]; intros h R N.
  - exists h. auto.
  - rewrite script_cons.
    destruct (IH (after c h)) as (h' & Run & Log & Flag).
    + cbn [after this isRunning]. rewrite R.
      destruct c as [[|] | | | | | | | |]; try reflexivity.
      exfalso. apply N. left. reflexivity.
    + intros I. apply N. right. exact I.
    + exists h'. split; [exact Run|]. split; [|exact Flag].
      rewrite Log. cbn [after rendered]. rewrite R.
      destruct (attempt c); apply app_nil_r.
Qed.

(* ===================================================================== *)
(** ** The properties of the gateway *)
(* ===================================================================== *)

(** C1: for every failure [e] the classification step returns the key of
    the branch table.  Row by row: a transport-layer error with status 404
    gives ERROR_OPENAI_API_KEY_NO_GPT4; with status 429 it gives
    ERROR_ACCESSING_OPENAI_API_KEY and not ERROR_API_KEY_QUOTA; with any
    other status it gives ERROR_ACCESSING_OPENAI_API_KEY; a string gives
    itself; every other value that is no transport-layer error gives
    ERROR_RETRIEVE_INITIAL_TASKS. *)
Theorem classify_branch_table (e : JSValue) :
  classify e = inr (branch_table e) /\
  (is_transport_error e = true -> status_code e = Some 404%Z ->
   classify e = inr "ERROR_OPENAI_API_KEY_NO_GPT4") /\
  (is_transport_error e = true -> status_code e = Some 429%Z ->
   classify e = inr "ERROR_ACCESSING_OPENAI_API_KEY" /\
   classify e <> inr "ERROR_API_KEY_QUOTA") /\
  (forall n : Z,
     is_transport_error e = true -> status_code e = Some n -> n <> 404%Z ->
     classify e = inr "ERROR_ACCESSING_OPENAI_API_KEY") /\
  (forall text : string, e = JString text -> classify e = inr text) /\
  (is_transport_error e = false -> typeof e <> "string" ->
   classify e = inr "ERROR_RETRIEVE_INITIAL_TASKS").
Proof.
  assert (Other : forall n : Z,
            is_transport_error e = true -> status_code e = Some n -> n <> 404%Z ->
            classify e = inr "ERROR_ACCESSING_OPENAI_API_KEY").
  { intros n T S N. rewrite classify_returns. unfold branch_table, has_status.
    rewrite T, S. destruct (Z.eqb_spec n 404); [contradiction | reflexivity]. }
  split; [apply classify_returns|].
  split.
  { intros T S. rewrite classify_returns. unfold branch_table, has_status.
    rewrite T, S. reflexivity. }
  split.
  { intros T S. rewrite (Other 429%Z T S); [|lia].
    split; [reflexivity | discriminate]. }
  split; [exact Other|].
  split.
  { intros text ->. reflexivity. }
  intros T NotString. rewrite (classify_not_transport e T).
  destruct e; try reflexivity.
  exfalso. apply NotString. reflexivity.
Qed.

(** C2: run any script of calls from any heap.  The script returns, and
    the calls it made to the stored render callback are exactly the
    notifications published at a moment the stored flag was true, in call
    order, where the flag at the moment of call number [i] is the one the
    heap holds once the first [i] calls have run; a [sendMessage] while
    the flag is false changes nothing, so nothing is kept for later. *)
Theorem gate_delivers_while_running (cs : list Call) (h : Heap) :
  (exists h',
     script cs h = (inr tt, h') /\
     rendered h' =
       (rendered h ++
        map (pair (renderMessage (this h))) (received (isRunning (this h)) cs))%list) /\
  (forall i : nat,
     exists hi,
       script (firstn i cs) h = (inr tt, hi) /\
       isRunning (this hi) = runState_at (isRunning (this h)) cs i) /\
  (forall m : Message,
     isRunning (this h) = false -> sendMessage m h = (inr tt, h)).
Proof.
  split; [|split].
  - destruct (script_run cs h) as (h' & Run & _ & _ & Log). eauto.
  - intros i. destruct (script_run (firstn i cs) h) as (hi & Run & _ & Flag & _).
    exists hi. split; [exact Run | exact Flag].
  - intros m R. apply sendMessage_stopped, R.
Qed.

(** C3: [sendAnalysisMessage] publishes a system message whose text is
    the web-search sentence around [arg] when [action] is "search", the
    Wikipedia sentence around [arg] when it is "wikipedia", the
    image-generation sentence around [arg] when it is "image", the fixed
    writing-code sentence when it is "code", and the generic
    generating-response sentence for every other or missing action. *)
Theorem sendAnalysisMessage_sentence (analysis : Analysis) (h : Heap) :
  sendAnalysisMessage analysis h =
    sendMessage {| type := MESSAGE_TYPE_SYSTEM; value := analysisMessage analysis |} h /\
  (action analysis = Some "search" ->
   analysisMessage analysis =
     "🔍 Searching the web for " ++ dquote ++ template (arg analysis) ++ dquote ++ "..." /\
   forall text, arg analysis = Some text -> contains (analysisMessage analysis) text) /\
  (action analysis = Some "wikipedia" ->
   analysisMessage analysis =
     "🌐 Searching Wikipedia for " ++ dquote ++ template (arg analysis) ++ dquote ++ "..." /\
   forall text, arg analysis = Some text -> contains (analysisMessage analysis) text) /\
  (action analysis = Some "image" ->
   analysisMessage analysis =
     "🎨 Generating an image with prompt: " ++ dquote ++ template (arg analysis)
       ++ dquote ++ "..." /\
   forall text, arg analysis = Some text -> contains (analysisMessage analysis) text) /\
  (action analysis = Some "code" -> analysisMessage analysis = "💻 Writing code...") /\
  (unrecognized (action analysis) ->
   analysisMessage analysis = "⏰ Generating response...").
Proof.
  destruct analysis as [act a]. cbn [action arg].
  split; [reflexivity|].
  split; [|split; [|split; [|split]]].
  - intros ->. split; [reflexivity|].
    intros text ->.
    exists ("🔍 Searching the web for " ++ dquote), (dquote ++ "...").
    reflexivity.
  - intros ->. split; [reflexivity|].
    intros text ->.
    exists ("🌐 Searching Wikipedia for " ++ dquote), (dquote ++ "...").
    reflexivity.
  - intros ->. split; [reflexivity|].
    intros text ->.
    exists ("🎨 Generating an image with prompt: " ++ dquote), (dquote ++ "...").
    reflexivity.
  - intros ->. reflexivity.
  - intros U. unfold unrecognized in U. cbn [In] in U.
    unfold analysisMessage. cbn [action arg].
    destruct act as [s|]; [|reflexivity]. cbn [loose_eq_string].
    destruct (String.eqb_spec s "search") as [->|_]; [tauto|].
    destruct (String.eqb_spec s "wikipedia") as [->|_]; [tauto|].
    destruct (String.eqb_spec s "image") as [->|_]; [tauto|].
    destruct (String.eqb_spec s "code") as [->|_]; [tauto|].
    reflexivity.
Qed.

(** C4: while the service is running, [sendErrorMessage] on a
    transport-layer error with status 404 makes exactly one call to the
    render callback, with a system message whose value is the text
    [translate] gives for ERROR_OPENAI_API_KEY_NO_GPT4 in the namespace
    "errors". *)
Theorem sendErrorMessage_404_running (e : JSValue) (h : Heap) :
  isRunning (this h) = true ->
  is_transport_error e = true ->
  status_code e = Some 404%Z ->
  sendErrorMessage e h =
    (inr tt,
     {| this := this h;
        rendered :=
          rendered h ++
          [(renderMessage (this h),
            {| type := MESSAGE_TYPE_SYSTEM;
               value := translate "ERROR_OPENAI_API_KEY_NO_GPT4" "errors" |})] |}).
Proof.
  intros R T S.
  rewrite sendErrorMessage_run, (sendMessage_running _ h R).
  unfold branch_table, has_status. rewrite T, S. reflexivity.
Qed.

(** C5: a freshly constructed service is not running, and as long as no
    call is [setIsRunning(true)] every script of calls run on it returns
    without a single call to the render callback; in particular
    [sendThinkingMessage] on a service that is not running changes
    nothing. *)
Theorem fresh_service_is_silent (sink : Sink) (cs : list Call) :
  isRunning (constructor sink) = false /\
  (~ In (CallSetIsRunning true) cs ->
   exists h',
     script cs {| this := constructor sink; rendered := [] |} = (inr tt, h') /\
     rendered h' = [] /\ isRunning (this h') = false) /\
  (forall h : Heap,
     isRunning (this h) = false -> sendThinkingMessage h = (inr tt, h)).
Proof.
  split; [reflexivity|]. split.
  - intros N. apply (script_stopped cs); [reflexivity | exact N].
  - intros h R. apply sendMessage_stopped, R.
Qed.

(** *** The classification step on values whose reads run code *)











(** C8: while the service is running, [sendGoalMessage] makes exactly one
    call to the render callback, with a goal message whose value is the
    given text. *)
Theorem sendGoalMessage_running (goal : string) (h : Heap) :
  isRunning (this h) = true ->
  sendGoalMessage goal h =
    (inr tt,
     {| this := this h;
        rendered :=
          rendered h ++
          [(renderMessage (this h), {| type := MESSAGE_TYPE_GOAL; value := goal |})] |}).
Proof. intros R. apply sendMessage_running, R. Qed.

(** C9: a transport-layer error that carries no response, or a response
    without a status, is classified ERROR_ACCESSING_OPENAI_API_KEY and
    not ERROR_RETRIEVE_INITIAL_TASKS. *)
Theorem classify_transport_without_status (e : JSValue) :
  is_transport_error e = true ->
  no_status_code e ->
  classify e = inr "ERROR_ACCESSING_OPENAI_API_KEY" /\
  classify e <> inr "ERROR_RETRIEVE_INITIAL_TASKS".
Proof.
  intros T (response & Resp & NoStatus).
  assert (S : exists status,
            response_status e = inr status /\ is_nullish status = true).
  { unfold response_status. rewrite Resp. cbn [bind Monad_either].
    unfold get_prop_opt.
    destruct NoStatus as [Nullish | (status & St & Nullish)].
    - rewrite Nullish. exists JUndefined. split; reflexivity.
    - destruct (is_nullish response).
      + exists JUndefined. split; reflexivity.
      + exists status. split; assumption. }
  destruct S as (status & S & Nullish).
  rewrite (classify_transport e T S).
  destruct status; try discriminate; split; (reflexivity || discriminate).
Qed.

(** C10: [setIsRunning] changes the flag and nothing else; [sendMessage]
    leaves the flag and the stored callback as they were and calls the
    stored callback at most once, with its argument. *)
Theorem methods_frame (b : bool) (m : Message) (h : Heap) :
  setIsRunning b h =
    (inr tt,
     {| this := {| isRunning := b; renderMessage := renderMessage (this h) |};
        rendered := rendered h |}) /\
  exists calls,
    sendMessage m h =
      (inr tt, {| this := this h; rendered := rendered h ++ calls |}) /\
    length calls <= 1 /\
    Forall (eq (renderMessage (this h), m)) calls.
Proof.
  split; [reflexivity|].
  rewrite sendMessage_run.
  destruct (isRunning (this h)); eexists; (split; [reflexivity|]); cbn; auto.
Qed.

(* ===================================================================== *)
(** ** Scripts: composition, the flag, the log *)
(* ===================================================================== *)

Lemma fold_toggle_last (cs : list Call) :
  forall running0 : bool,
  fold_left toggle cs running0 =
    match last_setIsRunning cs with
    | Some b => b
    | None => running0
    end.
Proof.
  induction cs as [| c cs IH]; intros running0; [reflexivity|].
  cbn [fold_left last_setIsRunning]. rewrite IH.
  destruct (last_setIsRunning cs); [reflexivity|].
  destruct c; reflexivity.
Qed.

Lemma received_attempted (cs : list Call) :
  forall (running0 : bool) (m : Message),
  In m (received running0 cs) -> In m (attempts cs).
Proof.
  induction cs as [| c cs IH]; intros running0 m; [intros []|].
  rewrite received_cons. unfold attempts. cbn [flat_map].
  rewrite !in_app_iff. intros [Here | Later].
  - left. destruct (attempt c); [destruct running0|]; [exact Here | destruct Here ..].
  - right. apply (IH _ _ Later).
Qed.

Lemma received_length (cs : list Call) :
  forall running0 : bool, length (received running0 cs) <= length cs.
Proof.
  induction cs as [| c cs IH]; intros running0; [apply le_n|].
  rewrite received_cons, length_app. cbn [length].
  specialize (IH (toggle running0 c)).
  destruct (attempt c); [destruct running0|]; cbn [length]; lia.
Qed.

Lemma script_concat (cs1 cs2 : list Call) :
  forall h : Heap,
  exists h1,
    script cs1 h = (inr tt, h1) /\
    script (cs1 ++ cs2) h = script cs2 h1.
Proof.
  induction cs1 as [| c cs1 IH]; intros h.
  - exists h. split; reflexivity.
  - destruct (IH (after c h)) as (h1 & Run & Both).
    exists h1. cbn [app]. rewrite !script_cons. split; assumption.
Qed.

(** X2: the flag a script leaves is the argument of its last
    [setIsRunning], and the flag it found when it has none: however many
    times the flag was set before, only the last setting counts. *)
Theorem script_last_setIsRunning_wins (cs : list Call) (h : Heap) :
  exists h',
    script cs h = (inr tt, h') /\
    isRunning (this h') =
      match last_setIsRunning cs with
      | Some b => b
      | None => isRunning (this h)
      end.
Proof.
  destruct (script_run cs h) as (h' & Run & _ & Flag & _).
  exists h'. split; [exact Run|].
  rewrite Flag. apply fold_toggle_last.
Qed.

(** X3: a script never replaces the stored callback, never removes or
    reorders a call already made to it, makes at most one call to it for
    each call of the script, only to the stored callback, and only with a
    notification one of the calls tried to publish. *)
Theorem script_log_grows (cs : list Call) (h : Heap) :
  exists h' new,
    script cs h = (inr tt, h') /\
    renderMessage (this h') = renderMessage (this h) /\
    rendered h' = (rendered h ++ new)%list /\
    length new <= length cs /\
    forall (sink : Sink) (m : Message),
      In (sink, m) new -> sink = renderMessage (this h) /\ In m (attempts cs).
Proof.
  destruct (script_run cs h) as (h' & Run & Same & _ & Log).
  exists h', (map (pair (renderMessage (this h))) (received (isRunning (this h)) cs)).
  split; [exact Run|]. split; [exact Same|]. split; [exact Log|]. split.
  - rewrite length_map. apply received_length.
  - intros sink m I. apply in_map_iff in I. destruct I as (m' & E & I).
    injection E as <- <-. split; [reflexivity|].
    apply (received_attempted _ _ _ I).
Qed.

(** X4: once [setIsRunning(false)] has been called, nothing reaches the
    sink until [setIsRunning(true)] is called: whatever ran before, the
    calls that follow the stop leave the log as the stop found it. *)
Theorem stop_silences (cs1 cs2 : list Call) (h : Heap) :
  ~ In (CallSetIsRunning true) cs2 ->
  exists h1 h2,
    script cs1 h = (inr tt, h1) /\
    script (cs1 ++ CallSetIsRunning false :: cs2) h = (inr tt, h2) /\
    rendered h2 = rendered h1 /\
    isRunning (this h2) = false.
Proof.
  intros N.
  destruct (script_concat cs1 (CallSetIsRunning false :: cs2) h) as (h1 & Run1 & Both).
  destruct (script_stopped cs2 (after (CallSetIsRunning false) h1) eq_refl N)
    as (h2 & Run2 & Log & Flag).
  exists h1, h2. split; [exact Run1|].
  rewrite Both, script_cons. split; [exact Run2|]. split; [|exact Flag].
  rewrite Log. cbn [after rendered attempt]. apply app_nil_r.
Qed.

(** X5: while the service is running and no call is
    [setIsRunning(false)], nothing is dropped: the sink receives every
    notification the calls try to publish, in call order, and the service
    is still running afterwards. *)
Theorem running_delivers_all (cs : list Call) :
  forall h : Heap,
  isRunning (this h) = true ->
  ~ In (CallSetIsRunning false) cs ->
  exists h',
    script cs h = (inr tt, h') /\
    rendered h' =
      (rendered h ++ map (pair (renderMessage (this h))) (attempts cs))%list /\
    isRunning (this h') = true.
Proof.
  induction cs as [| c cs IH]; intros h R N.
  - exists h. cbn. rewrite app_nil_r. auto.
  - rewrite script_cons.
    destruct (IH (after c h)) as (h' & Run & Log & Flag).
    + cbn [after this isRunning]. rewrite R.
      destruct c as [[|] | | | | | | | |]; try reflexivity.
      exfalso. apply N. left. reflexivity.
    + intros I. apply N. right. exact I.
    + exists h'. split; [exact Run|]. split; [|exact Flag].
      rewrite Log. cbn [after rendered this renderMessage]. rewrite R.
      unfold attempts. cbn [flat_map]. rewrite map_app, <- app_assoc.
      f_equal. f_equal. destruct (attempt c); reflexivity.
Qed.

End Service.

(* ===================================================================== *)
(** ** The properties at sample inputs *)
(* ===================================================================== *)

Example classify_samples :
  classify (axiosErrorWithStatus 404) = inr "ERROR_OPENAI_API_KEY_NO_GPT4" /\
  classify (axiosErrorWithStatus 429) = inr "ERROR_ACCESSING_OPENAI_API_KEY" /\
  classify (axiosErrorWithStatus 500) = inr "ERROR_ACCESSING_OPENAI_API_KEY" /\
  classify axiosErrorWithoutResponse = inr "ERROR_ACCESSING_OPENAI_API_KEY" /\
  classify (JString "boom") = inr "boom" /\
  classify unrelatedObject = inr "ERROR_RETRIEVE_INITIAL_TASKS" /\
  classify JNull = inr "ERROR_RETRIEVE_INITIAL_TASKS" /\
  classify JUndefined = inr "ERROR_RETRIEVE_INITIAL_TASKS" /\
  classify (JNumber 404) = inr "ERROR_RETRIEVE_INITIAL_TASKS" /\
  classify (JFunction [("isAxiosError", JBoolean true)]) =
    inr "ERROR_RETRIEVE_INITIAL_TASKS" /\
  classify (JObject [("isAxiosError", JBoolean true); ("response", JNumber 404)]) =
    inr "ERROR_ACCESSING_OPENAI_API_KEY" /\
  classify (JObject [("isAxiosError", JString "true");
                     ("response", JObject [("status", JNumber 404)])]) =
    inr "ERROR_RETRIEVE_INITIAL_TASKS" /\
  classify (JObject [("isAxiosError", JBoolean true);
                     ("response", JObject [("status", JString "404")])]) =
    inr "ERROR_ACCESSING_OPENAI_API_KEY".
Proof. repeat split. Qed.

Example script_sample :
  let m1 := {| type := MESSAGE_TYPE_GOAL; value := "one" |} in
  let m2 := {| type := MESSAGE_TYPE_SYSTEM; value := "two" |} in
  let m3 := {| type := MESSAGE_TYPE_THINKING; value := "" |} in
  let m4 := {| type := MESSAGE_TYPE_SYSTEM; value := "four" |} in
  let cs := [CallSendMessage m1; CallSetIsRunning true; CallSendMessage m2;
             CallSetIsRunning false; CallSendMessage m3;
             CallSetIsRunning true; CallSendMessage m4] in
  received sampleTranslate false cs = [m2; m4] /\
  script sampleTranslate cs {| this := constructor 7; rendered := [] |} =
    (inr tt,
     {| this := {| isRunning := true; renderMessage := 7 |};
        rendered := [(7, m2); (7, m4)] |}).
Proof. split; reflexivity. Qed.

Lemma classify_branch_table_witness :
  (is_transport_error (axiosErrorWithStatus 404) = true /\
   status_code (axiosErrorWithStatus 404) = Some 404%Z /\
   classify (axiosErrorWithStatus 404) = inr "ERROR_OPENAI_API_KEY_NO_GPT4") /\
  (is_transport_error (axiosErrorWithStatus 429) = true /\
   status_code (axiosErrorWithStatus 429) = Some 429%Z /\
   classify (axiosErrorWithStatus 429) = inr "ERROR_ACCESSING_OPENAI_API_KEY" /\
   classify (axiosErrorWithStatus 429) <> inr "ERROR_API_KEY_QUOTA") /\
  (is_transport_error (axiosErrorWithStatus 500) = true /\
   status_code (axiosErrorWithStatus 500) = Some 500%Z /\
   500%Z <> 404%Z /\
   classify (axiosErrorWithStatus 500) = inr "ERROR_ACCESSING_OPENAI_API_KEY") /\
  classify (JString "boom") = inr "boom" /\
  (is_transport_error unrelatedObject = false /\
   typeof unrelatedObject <> "string" /\
   classify unrelatedObject = inr "ERROR_RETRIEVE_INITIAL_TASKS").
Proof.
  split; [|split; [|split; [|split]]].
  - split; [reflexivity|]. split; [reflexivity|].
    apply (proj1 (proj2 (classify_branch_table (axiosErrorWithStatus 404))));
      reflexivity.
  - split; [reflexivity|]. split; [reflexivity|].
    apply (proj1 (proj2 (proj2 (classify_branch_table (axiosErrorWithStatus 429)))));
      reflexivity.
  - split; [reflexivity|]. split; [reflexivity|]. split; [lia|].
    apply (proj1 (proj2 (proj2 (proj2
             (classify_branch_table (axiosErrorWithStatus 500))))) 500%Z);
      [reflexivity | reflexivity | lia].
  - apply (proj1 (proj2 (proj2 (proj2 (proj2
             (classify_branch_table (JString "boom")))))) "boom").
    reflexivity.
  - split; [reflexivity|]. split; [discriminate|].
    apply (proj2 (proj2 (proj2 (proj2 (proj2
             (classify_branch_table unrelatedObject))))));
      [reflexivity | discriminate].
Defined.

Lemma gate_delivers_while_running_witness :
  let m := {| type := MESSAGE_TYPE_GOAL; value := "late" |} in
  let h := {| this := {| isRunning := false; renderMessage := 7 |};
              rendered := [(7, {| type := MESSAGE_TYPE_THINKING; value := "" |})] |} in
  isRunning (this h) = false /\ sendMessage m h = (inr tt, h).
Proof.
  intros m h. split; [reflexivity|].
  apply (proj2 (proj2 (gate_delivers_while_running sampleTranslate [] h)) m).
  reflexivity.
Defined.

Lemma sendAnalysisMessage_sentence_witness :
  let h := {| this := constructor 7; rendered := [] |} in
  (action {| action := Some "search"; arg := Some "cats" |} = Some "search" /\
   contains (analysisMessage {| action := Some "search"; arg := Some "cats" |}) "cats") /\
  (action {| action := Some "wikipedia"; arg := Some "Rome" |} = Some "wikipedia" /\
   contains (analysisMessage {| action := Some "wikipedia"; arg := Some "Rome" |}) "Rome") /\
  (action {| action := Some "image"; arg := Some "a dog" |} = Some "image" /\
   contains (analysisMessage {| action := Some "image"; arg := Some "a dog" |}) "a dog") /\
  (action {| action := Some "code"; arg := Some "x" |} = Some "code" /\
   analysisMessage {| action := Some "code"; arg := Some "x" |} = "💻 Writing code...") /\
  (unrecognized (action {| action := Some "reason"; arg := None |}) /\
   analysisMessage {| action := Some "reason"; arg := None |} =
     "⏰ Generating response...") /\
  (unrecognized (action {| action := None; arg := None |}) /\
   analysisMessage {| action := None; arg := None |} = "⏰ Generating response...").
Proof.
  intros h.
  assert (U1 : unrecognized (Some "reason")).
  { unfold unrecognized. cbn [In]. intros [E|[E|[E|[E|[]]]]]; discriminate. }
  assert (U2 : unrecognized None).
  { unfold unrecognized. cbn [In]. intros [E|[E|[E|[E|[]]]]]; discriminate. }
  split; [|split; [|split; [|split; [|split]]]].
  - split; [reflexivity|].
    apply (proj1 (proj2 (sendAnalysisMessage_sentence
             {| action := Some "search"; arg := Some "cats" |} h)));
      reflexivity.
  - split; [reflexivity|].
    apply (proj1 (proj2 (proj2 (sendAnalysisMessage_sentence
             {| action := Some "wikipedia"; arg := Some "Rome" |} h))));
      reflexivity.
  - split; [reflexivity|].
    apply (proj1 (proj2 (proj2 (proj2 (sendAnalysisMessage_sentence
             {| action := Some "image"; arg := Some "a dog" |} h)))));
      reflexivity.
  - split; [reflexivity|].
    apply (proj1 (proj2 (proj2 (proj2 (proj2 (sendAnalysisMessage_sentence
             {| action := Some "code"; arg := Some "x" |} h))))));
      reflexivity.
  - split; [exact U1|].
    apply (proj2 (proj2 (proj2 (proj2 (proj2 (sendAnalysisMessage_sentence
             {| action := Some "reason"; arg := None |} h)))))).
    exact U1.
  - split; [exact U2|].
    apply (proj2 (proj2 (proj2 (proj2 (proj2 (sendAnalysisMessage_sentence
             {| action := None; arg := None |} h)))))).
    exact U2.
Defined.

Lemma sendErrorMessage_404_running_witness :
  let h := {| this := {| isRunning := true; renderMessage := 7 |}; rendered := [] |} in
  isRunning (this h) = true /\
  is_transport_error (axiosErrorWithStatus 404) = true /\
  status_code (axiosErrorWithStatus 404) = Some 404%Z /\
  sendErrorMessage sampleTranslate (axiosErrorWithStatus 404) h =
    (inr tt,
     {| this := {| isRunning := true; renderMessage := 7 |};
        rendered :=
          [(7, {| type := MESSAGE_TYPE_SYSTEM;
                  value := "errors:ERROR_OPENAI_API_KEY_NO_GPT4" |})] |}).
Proof.
  intros h. split; [reflexivity|]. split; [reflexivity|]. split; [reflexivity|].
  apply (sendErrorMessage_404_running sampleTranslate (axiosErrorWithStatus 404) h);
    reflexivity.
Defined.

Lemma fresh_service_is_silent_witness :
  let cs := [CallSendThinkingMessage; CallSendGoalMessage "Plan a trip";
             CallSetIsRunning false; CallSendErrorMessage (axiosErrorWithStatus 404);
             CallSendAnalysisMessage {| action := Some "code"; arg := None |}] in
  ~ In (CallSetIsRunning true) cs /\
  exists h',
    script sampleTranslate cs {| this := constructor 7; rendered := [] |} = (inr tt, h') /\
    rendered h' = [] /\ isRunning (this h') = false.
Proof.
  intros cs.
  assert (N : ~ In (CallSetIsRunning true) cs).
  { cbn [In cs]. intros [E|[E|[E|[E|[E|[]]]]]]; discriminate. }
  split; [exact N|].
  apply (proj1 (proj2 (fresh_service_is_silent sampleTranslate 7 cs))).
  exact N.
Defined.

Lemma sendGoalMessage_running_witness :
  let h := {| this := {| isRunning := true; renderMessage := 7 |}; rendered := [] |} in
  isRunning (this h) = true /\
  sendGoalMessage "Plan a trip" h =
    (inr tt,
     {| this := {| isRunning := true; renderMessage := 7 |};
        rendered := [(7, {| type := MESSAGE_TYPE_GOAL; value := "Plan a trip" |})] |}).
Proof.
  intros h. split; [reflexivity|].
  apply (sendGoalMessage_running "Plan a trip" h). reflexivity.
Defined.

Lemma classify_transport_without_status_witness :
  is_transport_error axiosErrorWithoutResponse = true /\
  no_status_code axiosErrorWithoutResponse /\
  classify axiosErrorWithoutResponse = inr "ERROR_ACCESSING_OPENAI_API_KEY" /\
  classify axiosErrorWithoutResponse <> inr "ERROR_RETRIEVE_INITIAL_TASKS".
Proof.
  assert (N : no_status_code axiosErrorWithoutResponse).
  { exists JUndefined. split; [reflexivity|]. left. reflexivity. }
  split; [reflexivity|]. split; [exact N|].
  apply (@classify_transport_without_status axiosErrorWithoutResponse);
    [reflexivity | exact N].
Defined.

(* ===================================================================== *)
(** ** More on the classification step *)
(* ===================================================================== *)

(** X6: the key of a failure is one of three fixed keys, unless the
    failure is a string, which is then the key itself: a string is the
    only way a key outside the three reaches the text resolver. *)
Theorem classify_vocabulary (e : JSValue) :
  exists key,
    classify e = inr key /\
    (In key ["ERROR_OPENAI_API_KEY_NO_GPT4"; "ERROR_ACCESSING_OPENAI_API_KEY";
             "ERROR_RETRIEVE_INITIAL_TASKS"] \/
     e = JString key).
Proof.
  exists (branch_table e). split; [apply classify_returns|].
  unfold branch_table.
  destruct (is_transport_error e).
  - left. destruct (has_status e 404); cbn [In]; auto.
  - destruct e; cbn [In]; auto.
Qed.

(** X7: the quota key ERROR_API_KEY_QUOTA is the key of no failure but
    the string ERROR_API_KEY_QUOTA itself; no transport-layer error,
    whatever its status, is classified as a quota error. *)
Theorem classify_quota_only_from_string (e : JSValue) :
  classify e = inr "ERROR_API_KEY_QUOTA" <-> e = JString "ERROR_API_KEY_QUOTA".
Proof.
  split; [|intros ->; reflexivity].
  rewrite classify_returns. unfold branch_table.
  destruct (is_transport_error e).
  - destruct (has_status e 404); discriminate.
  - destruct e; try discriminate. intros E. injection E as ->. reflexivity.
Qed.

Lemma lookup_other_property (name key : string) (v : JSValue)
    (front back : list (string * JSValue)) :
  key <> name ->
  lookup name (front ++ (key, v) :: back) = lookup name (front ++ back).
Proof.
  intros Other. induction front as [| [k w] front IH]; cbn [app lookup].
  - destruct (String.eqb_spec key name); [contradiction | reflexivity].
  - rewrite IH. reflexivity.
Qed.

(** X8: the key of an error object depends on its [isAxiosError] and
    [response] properties alone: adding to it, anywhere, a property with
    another name (a message, a code, a stack) does not change the key. *)
Theorem classify_ignores_other_properties
    (front back : list (string * JSValue)) (key : string) (v : JSValue) :
  key <> "isAxiosError" ->
  key <> "response" ->
  classify (JObject (front ++ (key, v) :: back)) = classify (JObject (front ++ back)).
Proof.
  intros NotFlag NotResponse.
  unfold classify, isAxiosError, response_status, get_prop.
  cbn [isObject typeof String.eqb Ascii.eqb Bool.eqb].
  rewrite !(lookup_other_property v front back NotFlag).
  rewrite !(lookup_other_property v front back NotResponse).
  reflexivity.
Qed.

(* ===================================================================== *)
(** ** More on the analysis sentence *)
(* ===================================================================== *)

Lemma length_append (s1 s2 : string) :
  String.length (s1 ++ s2) = String.length s1 + String.length s2.
Proof. induction s1 as [| c s1 IH]; cbn; [reflexivity | rewrite IH; reflexivity]. Qed.

Lemma append_cancel_r (s : string) :
  forall s1 s2 : string, s1 ++ s = s2 ++ s -> s1 = s2.
Proof.
  induction s1 as [| c1 s1 IH]; intros [| c2 s2] E; cbn in E.
  - reflexivity.
  - apply (f_equal String.length) in E. cbn in E. rewrite length_append in E. lia.
  - apply (f_equal String.length) in E. cbn in E. rewrite length_append in E. lia.
  - injection E as -> E. f_equal. apply IH, E.
Qed.

Lemma analysisMessage_by_kind (analysis : Analysis) :
  analysisMessage analysis =
    match action_kind (action analysis) with
    | SearchAction =>
        "🔍 Searching the web for " ++ dquote ++ template (arg analysis)
          ++ dquote ++ "..."
    | WikipediaAction =>
        "🌐 Searching Wikipedia for " ++ dquote ++ template (arg analysis)
          ++ dquote ++ "..."
    | ImageAction =>
        "🎨 Generating an image with prompt: " ++ dquote
          ++ template (arg analysis) ++ dquote ++ "..."
    | CodeAction => "💻 Writing code..."
    | OtherAction => "⏰ Generating response..."
    end.
Proof.
  unfold analysisMessage, action_kind.
  destruct (action analysis) as [tag|]; [|reflexivity]. cbn [loose_eq_string].
  destruct (String.eqb_spec tag "search") as [->|_]; [reflexivity|].
  destruct (String.eqb_spec tag "wikipedia") as [->|_]; [reflexivity|].
  destruct (String.eqb_spec tag "image") as [->|_]; [reflexivity|].
  destruct (String.eqb_spec tag "code") as [->|_]; reflexivity.
Qed.

(** X9: the sentence of an analysis tells which branch produced it, and
    for a search, a Wikipedia search or an image it tells the argument
    too: two analyses with the same sentence took the same branch and, in
    these three branches, carry the same argument text (a missing
    argument reading as the text undefined). *)
Theorem analysisMessage_injective (a1 a2 : Analysis) :
  analysisMessage a1 = analysisMessage a2 ->
  action_kind (action a1) = action_kind (action a2) /\
  (embeds_arg (action_kind (action a1)) = true ->
   template (arg a1) = template (arg a2)).
Proof.
  rewrite !analysisMessage_by_kind.
  destruct (action_kind (action a1)), (action_kind (action a2));
    cbn [append dquote embeds_arg]; intros E;
    try discriminate E;
    (split; [reflexivity|]); intros Embeds; try discriminate Embeds;
    injection E as E; apply (append_cancel_r _ _ _ E).
Qed.

(* ===================================================================== *)
(** ** The command-line entry point *)
(* ===================================================================== *)

Import Cli.

Example main_samples :
  fst (main (sampleHost true "docker-compose")) =
    [PrintTitle; DoesEnvFileExist;
     ConsoleLog "Existing ./next/env file found. Validating...";
     TestEnvFile; Prompt existingEnvQuestions;
     Spawn "docker-compose" ["up"; "--build"] "inherit"] /\
  fst (main (sampleHost false "docker")) =
    [PrintTitle; DoesEnvFileExist; Prompt newEnvQuestions; DotenvConfig "./.env";
     GenerateEnv (JObject [("runOption", JString "docker")]);
     ConsoleLog (newline ++ "Env files successfully created!");
     ConsoleLog "Please manually run the docker files in `./next` and `./platform`"] /\
  fst (main (sampleHost true "other")) =
    [PrintTitle; DoesEnvFileExist;
     ConsoleLog "Existing ./next/env file found. Validating...";
     TestEnvFile; Prompt existingEnvQuestions].
Proof. repeat split. Qed.

Lemma handleRunOption_calls (host : Host) (runOption : JSValue) :
  (runOption = JString "docker-compose" /\
   runOption_calls host runOption =
     [Spawn "docker-compose" ["up"; "--build"] "inherit"]) \/
  (runOption <> JString "docker-compose" /\
   forall ev, In ev (runOption_calls host runOption) -> exists line, ev = ConsoleLog line).
Proof.
  unfold runOption_calls, handleRunOption.
  destruct runOption as [| | b | n | n | s | d | props | props];
    try (right; split; [discriminate | intros ev []]).
  cbn [strict_eq_string].
  destruct (String.eqb_spec s "docker-compose") as [->|NotCompose].
  - left. split; [reflexivity|]. destruct (spawn_returns host) eqn:R;
      unfold spawn; rewrite R; reflexivity.
  - right. split; [congruence|].
    destruct (String.eqb_spec s "docker") as [->|NotDocker].
    + cbn. intros ev [<-|[]]. eauto.
    + destruct (String.eqb_spec s "manual") as [->|NotManual].
      * cbn. intros ev [<-|[<-|[<-|[]]]]; eauto.
      * cbn. intros ev [].
Qed.

Lemma main_calls (host : Host) :
  fst (main host) =
    PrintTitle ::
    if printTitle_returns host then
      DoesEnvFileExist ::
      match doesEnvFileExist_result host with
      | None => []
      | Some true =>
          ConsoleLog "Existing ./next/env file found. Validating..." ::
          TestEnvFile ::
          if testEnvFile_returns host then
            Prompt existingEnvQuestions ::
            match prompt_result host existingEnvQuestions with
            | Some answers => answered_calls host answers
            | None => []
            end
          else []
      | Some false =>
          Prompt newEnvQuestions ::
          match prompt_result host newEnvQuestions with
          | Some answers =>
              DotenvConfig "./.env" ::
              if dotenvConfig_returns host then
                GenerateEnv answers ::
                if generateEnv_returns host answers then
                  ConsoleLog (newline ++ "Env files successfully created!") ::
                  answered_calls host answers
                else []
              else []
          | None => []
          end
      end
    else [].
Proof.
  unfold main, printTitle, doesEnvFileExist, call, returns.
  destruct (printTitle_returns host); [|reflexivity].
  destruct (doesEnvFileExist_result host) as [[|]|]; [| |reflexivity].
  - unfold handleExistingEnv, testEnvFile, call, returns, then_, prompt, call.
    destruct (testEnvFile_returns host); [|reflexivity].
    destruct (prompt_result host existingEnvQuestions) as [answers|]; [|reflexivity].
    unfold answered_calls, runOption_calls, evaluate, console_log, call.
    cbn -[handleRunOption get_prop].
    destruct (get_prop answers "runOption") as [err|runOption]; [reflexivity|].
    destruct (handleRunOption host runOption) as [calls result]. reflexivity.
  - unfold handleNewEnv, then_, prompt, call.
    destruct (prompt_result host newEnvQuestions) as [answers|]; [|reflexivity].
    unfold dotenv_config, generateEnv, call, returns.
    unfold answered_calls, runOption_calls, evaluate, console_log, call.
    cbn -[handleRunOption get_prop append].
    destruct (dotenvConfig_returns host); [|reflexivity].
    destruct (generateEnv_returns host answers); [|reflexivity].
    destruct (get_prop answers "runOption") as [err|runOption]; [reflexivity|].
    destruct (handleRunOption host runOption) as [calls result]. reflexivity.
Qed.

Lemma answered_calls_events (host : Host) (answers : JSValue) (ev : Event) :
  In ev (answered_calls host answers) ->
  ev = dockerComposeUp \/ exists line, ev = ConsoleLog line.
Proof.
  unfold answered_calls.
  destruct (get_prop answers "runOption") as [err|runOption]; [intros []|].
  destruct (handleRunOption_calls host runOption) as [[_ Calls]|[_ Logs]].
  - rewrite Calls. intros [<-|[]]. left. reflexivity.
  - intros I. right. apply Logs, I.
Qed.

Lemma answered_calls_spawn (host : Host) (answers : JSValue)
    (command : string) (args : list string) (stdio : string) :
  In (Spawn command args stdio) (answered_calls host answers) ->
  get_prop answers "runOption" = inr (JString "docker-compose") /\
  answered_calls host answers = [dockerComposeUp].
Proof.
  unfold answered_calls.
  destruct (get_prop answers "runOption") as [err|runOption]; [intros []|].
  destruct (handleRunOption_calls host runOption) as [[-> Calls]|[_ Logs]].
  - intros _. split; [reflexivity | exact Calls].
  - intros I. destruct (Logs _ I) as (line & E). discriminate E.
Qed.

(** X10: [handleRunOption] starts a process only when the run option is
    the string docker-compose, and then makes no other call; for every
    value that is none of the strings docker-compose, docker and manual
    (another string, [undefined], a number) it does nothing and
    returns. *)
Theorem handleRunOption_effects (host : Host) (runOption : JSValue) :
  (runOption <> JString "docker-compose" ->
   runOption <> JString "docker" ->
   runOption <> JString "manual" ->
   handleRunOption host runOption = ([], Some tt)) /\
  (forall (command : string) (args : list string) (stdio : string),
     In (Spawn command args stdio) (fst (handleRunOption host runOption)) ->
     runOption = JString "docker-compose" /\
     fst (handleRunOption host runOption) = [dockerComposeUp]).
Proof.
  split.
  - intros NotCompose NotDocker NotManual.
    destruct runOption as [| | b | n | n | s | d | props | props]; try reflexivity.
    unfold handleRunOption. cbn [strict_eq_string].
    destruct (String.eqb_spec s "docker-compose") as [->|_]; [contradiction|].
    destruct (String.eqb_spec s "docker") as [->|_]; [contradiction|].
    destruct (String.eqb_spec s "manual") as [->|_]; [contradiction|].
    reflexivity.
  - intros command args stdio I.
    destruct (handleRunOption_calls host runOption) as [[-> Calls]|[_ Logs]].
    + split; [reflexivity | exact Calls].
    + destruct (Logs _ I) as (line & E). discriminate E.
Qed.

(** X11: [generateEnv] is called only when [doesEnvFileExist] returned
    false, and then with the answers the user gave to the new-env
    questions, after [dotenv.config] returned: a run that finds an env
    file never generates one. *)
Theorem generateEnv_only_without_env_file (host : Host) (answers : JSValue) :
  In (GenerateEnv answers) (fst (main host)) ->
  doesEnvFileExist_result host = Some false /\
  prompt_result host newEnvQuestions = Some answers /\
  dotenvConfig_returns host = true.
Proof.
  rewrite main_calls.
  destruct (printTitle_returns host);
    [|intros [E|[]]; discriminate E].
  destruct (doesEnvFileExist_result host) as [[|]|].
  - destruct (testEnvFile_returns host).
    + destruct (prompt_result host existingEnvQuestions) as [given|];
        cbn [In]; intros I; repeat (destruct I as [I|I]; [discriminate I|]);
        [|destruct I].
      destruct (answered_calls_events _ _ _ I) as [E|(line & E)]; discriminate E.
    + cbn [In]. intros I. repeat (destruct I as [I|I]; [discriminate I|]).
      destruct I.
  - destruct (prompt_result host newEnvQuestions) as [given|].
    + destruct (dotenvConfig_returns host).
      * destruct (generateEnv_returns host given);
          cbn [In]; intros I;
          do 4 (destruct I as [I|I]; [discriminate I|]);
          (destruct I as [I|I]; [injection I as ->; auto|]).
        -- destruct I as [I|I]; [discriminate I|].
           destruct (answered_calls_events _ _ _ I) as [E|(line & E)]; discriminate E.
        -- destruct I.
      * cbn [In]. intros I. repeat (destruct I as [I|I]; [discriminate I|]).
        destruct I.
    + cbn [In]. intros I. repeat (destruct I as [I|I]; [discriminate I|]).
      destruct I.
  - cbn [In]. intros I. repeat (destruct I as [I|I]; [discriminate I|]).
    destruct I.
Qed.

(** X12: the user is asked the existing-env questions only when
    [doesEnvFileExist] returned true and [testEnvFile] returned without
    throwing, and the new-env questions only when [doesEnvFileExist]
    returned false: a failed validation ends the run before any
    question. *)
Theorem prompt_follows_the_env_check (host : Host) (questions : Questions) :
  In (Prompt questions) (fst (main host)) ->
  match questions with
  | existingEnvQuestions =>
      doesEnvFileExist_result host = Some true /\ testEnvFile_returns host = true
  | newEnvQuestions => doesEnvFileExist_result host = Some false
  end.
Proof.
  assert (Answered : forall answers, ~ In (Prompt questions) (answered_calls host answers)).
  { intros answers I.
    destruct (answered_calls_events _ _ _ I) as [E|(line & E)]; discriminate E. }
  rewrite main_calls.
  destruct (printTitle_returns host);
    [|intros [E|[]]; discriminate E].
  destruct (doesEnvFileExist_result host) as [[|]|].
  - destruct (testEnvFile_returns host).
    + destruct (prompt_result host existingEnvQuestions) as [given|];
        cbn [In]; intros I;
        do 4 (destruct I as [I|I]; [discriminate I|]);
        (destruct I as [I|I]; [injection I as <-; auto|]).
      * destruct (Answered _ I).
      * destruct I.
    + cbn [In]. intros I. repeat (destruct I as [I|I]; [discriminate I|]).
      destruct I.
  - destruct (prompt_result host newEnvQuestions) as [given|].
    + cbn [In]. intros I.
      do 2 (destruct I as [I|I]; [discriminate I|]).
      destruct I as [I|I]; [injection I as <-; reflexivity|].
      destruct I as [I|I]; [discriminate I|].
      destruct (dotenvConfig_returns host); [|destruct I].
      destruct I as [I|I]; [discriminate I|].
      destruct (generateEnv_returns host given); [|destruct I].
      destruct I as [I|I]; [discriminate I|].
      destruct (Answered _ I).
    + cbn [In]. intros I.
      do 2 (destruct I as [I|I]; [discriminate I|]).
      destruct I as [I|I]; [injection I as <-; reflexivity | destruct I].
  - cbn [In]. intros I. repeat (destruct I as [I|I]; [discriminate I|]).
    destruct I.
Qed.

(** X13: a run starts a process only as its last call, only
    [docker-compose up --build], and only once the user has answered the
    questions with the run option docker-compose; when there was no env
    file, only after [generateEnv] returned without throwing.  The whole
    run is then one of two call sequences. *)
Theorem spawn_ends_the_run
    (host : Host) (command : string) (args : list string) (stdio : string) :
  In (Spawn command args stdio) (fst (main host)) ->
  (exists answers,
     prompt_result host existingEnvQuestions = Some answers /\
     get_prop answers "runOption" = inr (JString "docker-compose") /\
     fst (main host) =
       [PrintTitle; DoesEnvFileExist;
        ConsoleLog "Existing ./next/env file found. Validating...";
        TestEnvFile; Prompt existingEnvQuestions; dockerComposeUp]) \/
  (exists answers,
     prompt_result host newEnvQuestions = Some answers /\
     get_prop answers "runOption" = inr (JString "docker-compose") /\
     generateEnv_returns host answers = true /\
     fst (main host) =
       [PrintTitle; DoesEnvFileExist; Prompt newEnvQuestions;
        DotenvConfig "./.env"; GenerateEnv answers;
        ConsoleLog (newline ++ "Env files successfully created!");
        dockerComposeUp]).
Proof.
  rewrite main_calls.
  destruct (printTitle_returns host);
    [|intros [E|[]]; discriminate E].
  destruct (doesEnvFileExist_result host) as [[|]|].
  - destruct (testEnvFile_returns host).
    + destruct (prompt_result host existingEnvQuestions) as [given|];
        cbn [In]; intros I; repeat (destruct I as [I|I]; [discriminate I|]);
        [|destruct I].
      destruct (answered_calls_spawn _ _ _ _ _ I) as (Option & Calls).
      left. exists given. rewrite Calls. auto.
    + cbn [In]. intros I. repeat (destruct I as [I|I]; [discriminate I|]).
      destruct I.
  - destruct (prompt_result host newEnvQuestions) as [given|].
    + destruct (dotenvConfig_returns host).
      * destruct (generateEnv_returns host given) eqn:Generated;
          cbn [In]; intros I; repeat (destruct I as [I|I]; [discriminate I|]);
          [|destruct I].
        destruct (answered_calls_spawn _ _ _ _ _ I) as (Option & Calls).
        right. exists given. rewrite Calls, Generated. auto.
      * cbn [In]. intros I. repeat (destruct I as [I|I]; [discriminate I|]).
        destruct I.
    + cbn [In]. intros I. repeat (destruct I as [I|I]; [discriminate I|]).
      destruct I.
  - cbn [In]. intros I. repeat (destruct I as [I|I]; [discriminate I|]).
    destruct I.
Qed.

(* ===================================================================== *)
(** ** The sidebar's list of agents *)
(* ===================================================================== *)

Lemma buttons_map_index (agents : list Sidebar.Agent) :
  forall start i : nat,
  nth_error
    (Sidebar.buttons
       (Sidebar.map_index
          (fun agent index =>
             Sidebar.DrawerItemButton index (Sidebar.name agent)
               ("/agent?id=" ++ Sidebar.id agent))
          start agents)) i =
  option_map
    (fun agent => (start + i, Sidebar.name agent, "/agent?id=" ++ Sidebar.id agent))
    (nth_error agents i).
Proof.
  induction agents as [| agent agents IH]; intros start i.
  - destruct i; reflexivity.
  - destruct i as [| i]; cbn [Sidebar.map_index Sidebar.buttons flat_map app nth_error option_map].
    + rewrite Nat.add_0_r. reflexivity.
    + fold (Sidebar.buttons
              (Sidebar.map_index
                 (fun agent index =>
                    Sidebar.DrawerItemButton index (Sidebar.name agent)
                      ("/agent?id=" ++ Sidebar.id agent))
                 (S start) agents)).
      rewrite IH, Nat.add_succ_r. reflexivity.
Qed.

Lemma buttons_when (cond : bool) (element : Sidebar.Child) (rest : list Sidebar.Child) :
  (forall key text pushes, element <> Sidebar.DrawerItemButton key text pushes) ->
  Sidebar.buttons (Sidebar.when cond element ++ rest) = Sidebar.buttons rest.
Proof.
  intros NotButton. destruct cond; [|reflexivity].
  destruct element; try reflexivity.
  destruct (NotButton key text pushes eq_refl).
Qed.

(** X14: the agent list shows one button for each agent of the query, in
    the order of the query: the button at position [i] has key [i], the
    name of agent [i] as text, and pushes [/agent?id=] followed by the id
    of agent [i]; without query data there is no button.  So the keys of
    the buttons are pairwise distinct. *)
Theorem agentList_buttons
    (t : string -> string) (status : string) (data : option (list Sidebar.Agent)) :
  (forall i : nat,
     nth_error (Sidebar.buttons (Sidebar.agentList t status data)) i =
     option_map
       (fun agent => (i, Sidebar.name agent, "/agent?id=" ++ Sidebar.id agent))
       (nth_error (Sidebar.userAgents data) i)) /\
  (forall (i j : nat) (b1 b2 : nat * string * string),
     nth_error (Sidebar.buttons (Sidebar.agentList t status data)) i = Some b1 ->
     nth_error (Sidebar.buttons (Sidebar.agentList t status data)) j = Some b2 ->
     fst (fst b1) = fst (fst b2) -> i = j).
Proof.
  assert (At : forall i : nat,
     nth_error (Sidebar.buttons (Sidebar.agentList t status data)) i =
     option_map
       (fun agent => (i, Sidebar.name agent, "/agent?id=" ++ Sidebar.id agent))
       (nth_error (Sidebar.userAgents data) i)).
  { intros i. unfold Sidebar.agentList.
    rewrite !buttons_when by (intros; discriminate).
    apply (buttons_map_index (Sidebar.userAgents data) 0 i). }
  split; [exact At|].
  intros i j b1 b2. rewrite !At.
  destruct (nth_error (Sidebar.userAgents data) i); [|discriminate].
  destruct (nth_error (Sidebar.userAgents data) j); [|discriminate].
  cbn [option_map]. intros [= <-] [= <-]. cbn [fst]. auto.
Qed.

(** X15: the notice that an agent must be created first is only ever
    shown alone, to an authenticated user without agents; it never
    appears beside the sign-in notice or beside a button. *)
Theorem createAgentNotice_alone
    (t : string -> string) (status : string) (data : option (list Sidebar.Agent))
    (notice : string) :
  In (Sidebar.CreateAgentNotice notice) (Sidebar.agentList t status data) ->
  status = "authenticated" /\
  Sidebar.userAgents data = [] /\
  Sidebar.agentList t status data =
    [Sidebar.CreateAgentNotice (t "NEED_TO_SIGN_IN_AND_CREATE_AGENT_FIRST")].
Proof.
  assert (NoNotice : forall agents start,
            ~ In (Sidebar.CreateAgentNotice notice)
                 (Sidebar.map_index
                    (fun agent index =>
                       Sidebar.DrawerItemButton index (Sidebar.name agent)
                         ("/agent?id=" ++ Sidebar.id agent))
                    start agents)).
  { induction agents as [| agent agents IH]; intros start; [intros []|].
    intros [E|I]; [discriminate E | apply (IH _ I)]. }
  unfold Sidebar.agentList. rewrite !in_app_iff.
  destruct (String.eqb_spec status "authenticated") as [->|Other].
  - cbn [String.eqb Ascii.eqb Bool.eqb Sidebar.when app andb].
    destruct (Sidebar.userAgents data) as [| agent agents].
    + intros _. auto.
    + cbn [length Nat.eqb Sidebar.when app].
      intros [[]|[[]|I]]. destruct (NoNotice _ _ I).
  - cbn [andb Sidebar.when].
    intros [I|[[]|I]]; [|destruct (NoNotice _ _ I)].
    destruct (status =? "unauthenticated")%string; [|destruct I].
    destruct I as [E|[]]. discriminate E.
Qed.

(* ===================================================================== *)
(** ** The further properties at sample inputs *)
(* ===================================================================== *)

Lemma stop_silences_witness :
  let h := {| this := constructor 7; rendered := [] |} in
  let cs1 := [CallSetIsRunning true; CallSendGoalMessage "Plan a trip"] in
  let cs2 := [CallSendThinkingMessage; CallSendLoopMessage;
              CallSendErrorMessage (JString "boom")] in
  ~ In (CallSetIsRunning true) cs2 /\
  exists h1 h2,
    script sampleTranslate cs1 h = (inr tt, h1) /\
    script sampleTranslate (cs1 ++ CallSetIsRunning false :: cs2) h = (inr tt, h2) /\
    rendered h2 = rendered h1 /\
    isRunning (this h2) = false.
Proof.
  intros h cs1 cs2.
  assert (N : ~ In (CallSetIsRunning true) cs2).
  { cbn [In cs2]. intros [E|[E|[E|[]]]]; discriminate. }
  split; [exact N|].
  apply (stop_silences sampleTranslate cs1 cs2 h N).
Defined.

Lemma running_delivers_all_witness :
  let h := {| this := {| isRunning := true; renderMessage := 7 |}; rendered := [] |} in
  let cs := [CallSendGoalMessage "Plan a trip"; CallSetIsRunning true;
             CallSendThinkingMessage;
             CallSendAnalysisMessage {| action := Some "code"; arg := None |}] in
  isRunning (this h) = true /\
  ~ In (CallSetIsRunning false) cs /\
  exists h',
    script sampleTranslate cs h = (inr tt, h') /\
    rendered h' =
      (rendered h ++ map (pair (renderMessage (this h))) (attempts sampleTranslate cs))%list /\
    isRunning (this h') = true.
Proof.
  intros h cs.
  assert (N : ~ In (CallSetIsRunning false) cs).
  { cbn [In cs]. intros [E|[E|[E|[E|[]]]]]; discriminate. }
  split; [reflexivity|]. split; [exact N|].
  apply (running_delivers_all sampleTranslate cs h); [reflexivity | exact N].
Defined.

Lemma classify_quota_only_from_string_witness :
  classify (JString "ERROR_API_KEY_QUOTA") = inr "ERROR_API_KEY_QUOTA" /\
  JString "ERROR_API_KEY_QUOTA" = JString "ERROR_API_KEY_QUOTA".
Proof.
  split; [reflexivity|].
  apply (proj1 (classify_quota_only_from_string (JString "ERROR_API_KEY_QUOTA"))).
  reflexivity.
Defined.

Lemma classify_ignores_other_properties_witness :
  "code" <> "isAxiosError" /\ "code" <> "response" /\
  classify (JObject ([("isAxiosError", JBoolean true)] ++
                     ("code", JString "ERR_BAD_REQUEST") ::
                     [("response", JObject [("status", JNumber 404)])])) =
  classify (JObject ([("isAxiosError", JBoolean true)] ++
                     [("response", JObject [("status", JNumber 404)])])).
Proof.
  split; [discriminate|]. split; [discriminate|].
  apply (classify_ignores_other_properties
           [("isAxiosError", JBoolean true)]
           [("response", JObject [("status", JNumber 404)])]
           (JString "ERR_BAD_REQUEST"));
    discriminate.
Defined.

Lemma analysisMessage_injective_witness :
  let a1 := {| action := Some "search"; arg := Some "undefined" |} in
  let a2 := {| action := Some "search"; arg := None |} in
  analysisMessage a1 = analysisMessage a2 /\
  action_kind (action a1) = action_kind (action a2) /\
  (embeds_arg (action_kind (action a1)) = true ->
   template (arg a1) = template (arg a2)).
Proof.
  intros a1 a2. split; [reflexivity|].
  apply (analysisMessage_injective a1 a2). reflexivity.
Defined.

Lemma handleRunOption_effects_witness :
  let host := sampleHost true "docker-compose" in
  (JUndefined <> JString "docker-compose" /\
   JUndefined <> JString "docker" /\
   JUndefined <> JString "manual" /\
   handleRunOption host JUndefined = ([], Some tt)) /\
  (In dockerComposeUp (fst (handleRunOption host (JString "docker-compose"))) /\
   fst (handleRunOption host (JString "docker-compose")) = [dockerComposeUp]).
Proof.
  intros host. split.
  - split; [discriminate|]. split; [discriminate|]. split; [discriminate|].
    apply (proj1 (handleRunOption_effects host JUndefined)); discriminate.
  - assert (I : In dockerComposeUp (fst (handleRunOption host (JString "docker-compose")))).
    { left. reflexivity. }
    split; [exact I|].
    apply (proj2 (handleRunOption_effects host (JString "docker-compose")) _ _ _ I).
Defined.

Lemma generateEnv_only_without_env_file_witness :
  let host := sampleHost false "manual" in
  let answers := JObject [("runOption", JString "manual")] in
  In (GenerateEnv answers) (fst (main host)) /\
  doesEnvFileExist_result host = Some false /\
  prompt_result host newEnvQuestions = Some answers /\
  dotenvConfig_returns host = true.
Proof.
  intros host answers.
  assert (I : In (GenerateEnv answers) (fst (main host))).
  { cbn. auto 6. }
  split; [exact I|].
  apply (generateEnv_only_without_env_file host answers I).
Defined.

Lemma prompt_follows_the_env_check_witness :
  let host := sampleHost true "docker" in
  In (Prompt existingEnvQuestions) (fst (main host)) /\
  doesEnvFileExist_result host = Some true /\ testEnvFile_returns host = true.
Proof.
  intros host.
  assert (I : In (Prompt existingEnvQuestions) (fst (main host))).
  { cbn. auto 6. }
  split; [exact I|].
  apply (prompt_follows_the_env_check host existingEnvQuestions I).
Defined.

Lemma spawn_ends_the_run_witness :
  let host := sampleHost false "docker-compose" in
  In dockerComposeUp (fst (main host)) /\
  ((exists answers,
      prompt_result host existingEnvQuestions = Some answers /\
      get_prop answers "runOption" = inr (JString "docker-compose") /\
      fst (main host) =
        [PrintTitle; DoesEnvFileExist;
         ConsoleLog "Existing ./next/env file found. Validating...";
         TestEnvFile; Prompt existingEnvQuestions; dockerComposeUp]) \/
   (exists answers,
      prompt_result host newEnvQuestions = Some answers /\
      get_prop answers "runOption" = inr (JString "docker-compose") /\
      generateEnv_returns host answers = true /\
      fst (main host) =
        [PrintTitle; DoesEnvFileExist; Prompt newEnvQuestions;
         DotenvConfig "./.env"; GenerateEnv answers;
         ConsoleLog (newline ++ "Env files successfully created!");
         dockerComposeUp])).
Proof.
  intros host.
  assert (I : In dockerComposeUp (fst (main host))).
  { cbn. auto 10. }
  split; [exact I|].
  apply (spawn_ends_the_run host "docker-compose" ["up"; "--build"] "inherit" I).
Defined.

Lemma agentList_buttons_witness :
  let data := Some [Sidebar.mkAgent "Planner" "a1"; Sidebar.mkAgent "Planner" "b2"] in
  let shown := Sidebar.buttons (Sidebar.agentList Sidebar.sampleT "authenticated" data) in
  nth_error shown 0 = Some (0, "Planner", "/agent?id=a1") /\
  nth_error shown 1 = Some (1, "Planner", "/agent?id=b2") /\
  (fst (fst (0, "Planner", "/agent?id=a1")) = fst (fst (1, "Planner", "/agent?id=b2")) ->
   0 = 1).
Proof.
  intros data shown.
  split; [reflexivity|]. split; [reflexivity|].
  apply (proj2 (agentList_buttons Sidebar.sampleT "authenticated" data) 0 1);
    reflexivity.
Defined.

Lemma createAgentNotice_alone_witness :
  let notice := Sidebar.sampleT "NEED_TO_SIGN_IN_AND_CREATE_AGENT_FIRST" in
  In (Sidebar.CreateAgentNotice notice)
     (Sidebar.agentList Sidebar.sampleT "authenticated" None) /\
  "authenticated" = "authenticated" /\
  Sidebar.userAgents None = [] /\
  Sidebar.agentList Sidebar.sampleT "authenticated" None =
    [Sidebar.CreateAgentNotice notice].
Proof.
  intros notice.
  assert (I : In (Sidebar.CreateAgentNotice notice)
                 (Sidebar.agentList Sidebar.sampleT "authenticated" None)).
  { left. reflexivity. }
  split; [exact I|].
  apply (createAgentNotice_alone Sidebar.sampleT "authenticated" None notice I).
Defined.

(* ===================================================================== *)
(** ** Reads that throw, reads that change *)
(* ===================================================================== *)






